(** * MCP-Bridge client session: a shallow embedding of
      [src/mcp_bridge/mcp_clients/session.py]

    The Python class [McpClientSession] is embedded as state-passing code over
    a record [Session] that holds the attributes the class reads and writes.
    Exceptions are explicit ([Exc]); the state survives a raise, as the
    attributes of a Python object do.

    What lies outside the file is kept at its interface:
    - [mcp.types] (the data classes of the protocol) is modelled by the
      records and inductive types of the first part, Protocol data;
    - [mcp.shared.session.BaseSession] supplies [send_request],
      [send_notification] and [respond] of the responder; they are modelled
      in section BaseSession by what they do to the outbound stream, the
      request-id counter and the table of pending requests;
    - the constants [LATEST_PROTOCOL_VERSION], [SUPPORTED_PROTOCOL_VERSIONS],
      the package [version], and the functions [wrap_message] and
      [handle_sampling_message] are parameters of the development;
    - a call that awaits a reply is given what its wait ends with, as a
      function [peer] of the request sent: the reply handed to the caller, or
      the error reply that stands for a timeout. A wait that never ends has no
      outcome here: what is proved of the result of a call is proved of the
      result its wait ends with, and what is proved of the envelopes written
      holds as soon as they are written. *)

From Stdlib Require Import ZArith String List Bool Floats.
From stdpp Require Import base gmap list.
Import ListNotations.
Local Open Scope string_scope.
Local Open Scope Z_scope.
Local Open Scope list_scope.

(** ** Protocol data ([mcp.types]) *)

(** [RequestId = str | int]. *)
Inductive RequestId : Type :=
| IdInt (n : Z)
| IdStr (s : string).

(** JSON values, for the free-form dictionaries some calls pass through. *)
Inductive JSON : Type :=
| JNull
| JBool (b : bool)
| JInt (n : Z)
| JStr (s : string)
| JObj (fields : list (string * string)).

(** A Python [dict] with string keys, in insertion order. *)
Definition dict : Type := list (string * JSON).

Fixpoint dict_get (d : dict) (k : string) : option JSON :=
  match d with
  | [] => None
  | (k', v) :: d' => if String.eqb k' k then Some v else dict_get d' k
  end.

(** Subclasses of Python's [Exception] that the session meets. *)
Inductive exn : Type :=
| ClosedResourceError                 (* anyio.ClosedResourceError *)
| RuntimeError (msg : string)
| McpError (code : Z) (msg : string)  (* a JSON-RPC error reply, re-raised *)
| ValidationError (msg : string)      (* pydantic *)
| OtherException (msg : string).

Definition is_ClosedResourceError (e : exn) : bool :=
  match e with ClosedResourceError => true | _ => false end.

Inductive Exc (A : Type) : Type :=
| Ok (a : A)
| Raise (e : exn).
Arguments Ok {A} a.
Arguments Raise {A} e.

Record SamplingCapability : Type := mkSamplingCapability { }.

Record RootsCapability : Type := mkRootsCapability {
  listChanged : option bool
}.

Record ClientCapabilities : Type := mkClientCapabilities {
  sampling : option SamplingCapability;
  experimental : option dict;
  roots : option RootsCapability
}.

Record Implementation : Type := mkImplementation {
  impl_name : string;
  impl_version : string
}.

Record InitializeRequestParams : Type := mkInitializeRequestParams {
  protocolVersion : string;
  capabilities : ClientCapabilities;
  clientInfo : Implementation
}.

Inductive ProgressToken : Type :=
| TokenStr (s : string)
| TokenInt (n : Z).

Record CompletionArgument : Type := mkCompletionArgument {
  arg_name : string;
  arg_value : string;
  arg_extra : dict
}.

Inductive CompletionRef : Type :=
| ResourceReference (uri : string)
| PromptReference (name : string).

(** The [params] member of the client's requests and notifications. *)
Inductive ClientParams : Type :=
| NoParams
| InitializeParams (p : InitializeRequestParams)
| ProgressNotificationParams (progressToken : ProgressToken)
    (progress : float) (total : option float)
| SetLevelRequestParams (level : string)
| ReadResourceRequestParams (uri : string)
| SubscribeRequestParams (uri : string)
| UnsubscribeRequestParams (uri : string)
| CallToolRequestParams (name : string) (arguments : option dict)
| GetPromptRequestParams (name : string) (arguments : option dict)
| CompleteRequestParams (ref : CompletionRef) (argument : CompletionArgument).

(** A request or notification body: the [method] the source passes to the
    data class, and its [params]. *)
Record ClientBody : Type := mkClientBody {
  method : string;
  params : ClientParams
}.

(** The result classes that carry a free-form payload. *)
Inductive PayloadKind : Type :=
| ListResources
| ReadResource
| CallTool
| ListPrompts
| GetPrompt
| Complete
| ListTools.

Definition PayloadKind_eqb (a b : PayloadKind) : bool :=
  match a, b with
  | ListResources, ListResources | ReadResource, ReadResource
  | CallTool, CallTool | ListPrompts, ListPrompts | GetPrompt, GetPrompt
  | Complete, Complete | ListTools, ListTools => true
  | _, _ => false
  end.

(** The [result] member of a reply from the peer, before validation. *)
Inductive ServerResult : Type :=
| RawInitialize (protocolVersion : string) (serverInfo : Implementation)
| RawEmpty
| RawPayload (kind : PayloadKind) (payload : dict).

(** The validated results. *)
Record InitializeResult : Type := mkInitializeResult {
  result_protocolVersion : string;
  serverInfo : Implementation
}.

Record EmptyResult : Type := mkEmptyResult { }.

Record PayloadResult (k : PayloadKind) : Type := mkPayloadResult {
  payload : dict
}.
Arguments mkPayloadResult {k} payload.
Arguments payload {k} p.

(** A result class, seen through its [model_validate]: the reply must have
    the shape of the class asked for. *)
Definition ResultClass (R : Type) : Type := ServerResult -> Exc R.

Definition types_InitializeResult : ResultClass InitializeResult :=
  fun r =>
    match r with
    | RawInitialize v i => Ok (mkInitializeResult v i)
    | _ => Raise (ValidationError "InitializeResult")
    end.

(** [EmptyResult] allows extra fields: every result object validates. *)
Definition types_EmptyResult : ResultClass EmptyResult :=
  fun _ => Ok mkEmptyResult.

Definition types_PayloadResult (k : PayloadKind) : ResultClass (PayloadResult k) :=
  fun r =>
    match r with
    | RawPayload k' d =>
        if PayloadKind_eqb k k' then Ok (mkPayloadResult d)
        else Raise (ValidationError "result")
    | _ => Raise (ValidationError "result")
    end.

Definition types_CompleteResult := types_PayloadResult Complete.

Record ErrorData : Type := mkErrorData {
  err_code : Z;
  err_message : string
}.

(** Sampling: what the peer asks for and what the handler returns. *)
Record CreateMessageRequestParams : Type := mkCreateMessageRequestParams {
  messages : list string;
  maxTokens : Z;
  systemPrompt : option string
}.

(** [TextContent | ImageContent]. *)
Inductive Content : Type :=
| TextContent (text : string)
| ImageContent (data : string) (mimeType : string).

Record CreateMessageResult : Type := mkCreateMessageResult {
  role : string;
  content : Content;
  model : string;
  stopReason : option string
}.

Definition Content_dump (c : Content) : JSON :=
  match c with
  | TextContent text => JObj [("type", "text"); ("text", text)]
  | ImageContent data mimeType =>
      JObj [("type", "image"); ("data", data); ("mimeType", mimeType)]
  end.

(** [types.ServerRequest]: the requests a server may send the client. *)
Inductive ServerRequest : Type :=
| PingRequest_s
| CreateMessageRequest (p : CreateMessageRequestParams)
| ListRootsRequest.

(** [CreateMessageResult.model_dump]: the fields as a dictionary. A field
    that is [None] is kept, as a null. *)
Definition model_dump (r : CreateMessageResult) : dict :=
  [ ("role", JStr (role r));
    ("content", Content_dump (content r));
    ("model", JStr (model r));
    ("stopReason", match stopReason r with Some x => JStr x | None => JNull end) ].

(** [types.ClientResult], a root model: built from keyword arguments, its
    root is the dictionary of those arguments. *)
Record ClientResult : Type := mkClientResult {
  root : dict
}.

Definition ClientResult_kwargs (kwargs : dict) : ClientResult :=
  {| root := kwargs |}.

Definition is_null (v : JSON) : bool :=
  match v with JNull => true | _ => false end.

(** The dump of a result for the wire, which leaves out the entries that
    are null ([exclude_none]). *)
Definition dump_exclude_none (r : ClientResult) : ClientResult :=
  {| root := List.filter (fun kv => negb (is_null (snd kv))) (root r) |}.

(** [types.JSONRPCMessage] as the client writes it: the four envelopes on
    the wire. *)
Inductive JSONRPCMessage : Type :=
| JSONRPCRequest (id : RequestId) (body : ClientBody)
| JSONRPCNotification (body : ClientBody)
| JSONRPCResponse (id : RequestId) (result : ClientResult)
| JSONRPCError (id : RequestId) (error : ErrorData).


(** What the peer answers to a request: [JSONRPCResponse | JSONRPCError]. *)
Inductive Reply : Type :=
| ReplyResult (result : ServerResult)
| ReplyError (error : ErrorData).

(** [types.JSONRPCMessage] as the client reads it. *)
Inductive ServerMessage : Type :=
| InRequest (id : RequestId) (request : ServerRequest)
| InNotification (method : string) (params : dict)
| InResponse (id : RequestId) (result : ServerResult)
| InError (id : RequestId) (error : ErrorData).

(** ** Streams

    The read stream delivers [JSONRPCMessage | Exception] items. Asking it
    for the next item either yields an item or raises; when the list is
    exhausted the stream has ended and the [async for] stops. *)
Inductive StreamItem : Type :=
| ItemMessage (m : ServerMessage)
| ItemException (e : exn).

Inductive StreamEvent : Type :=
| Yield (item : StreamItem)      (* the iteration hands over an item *)
| IterRaise (e : exn).           (* the iteration itself raises *)

Definition ReadStream : Type := list StreamEvent.

(** [RequestResponder]: the peer's request, the id to answer under, and
    whether the responder is entered, that is, inside a [with responder:]
    block. A responder is constructed not entered, and leaving the block
    resets the flag. *)
Record RequestResponder : Type := mkRequestResponder {
  request_id : RequestId;
  request : ServerRequest;
  _entered : bool
}.

(** What [wrap_message] hands back, by the tests the consumer loop applies
    to it, in the loop's order: an exception object; an object with a
    [request] attribute; a [ServerNotification] whose root is a
    [LoggingMessageNotification]; any other object with a [root] attribute;
    anything else. *)
Inductive Message : Type :=
| MsgException (e : exn)
| MsgResponder (responder : RequestResponder)
| MsgLoggingNotification (params : dict)
| MsgRooted (m : ServerMessage)
| MsgPlain (repr : string).

(** ** The session object *)

Inductive Level : Type := DEBUG | INFO | WARNING | ERROR | EXCEPTION.

(** A record written through [loguru]: the call used and the constant part
    of the message. *)
Definition LogRecord : Type := (Level * string)%type.

Record Session : Type := mkSession {
  _read_stream : ReadStream;
  _write_stream : list JSONRPCMessage;       (* what was written, in order *)
  _request_id : Z;                           (* next id to hand out *)
  _response_streams : gmap Z (list Reply);   (* pending requests, by id *)
  _read_timeout_seconds : option Z;
  incoming_messages : option ReadStream;
  _incoming_messages : option ReadStream;
  logger : list LogRecord
}.

Definition set_write_stream (w : list JSONRPCMessage) (s : Session) : Session :=
  mkSession (_read_stream s) w (_request_id s) (_response_streams s)
    (_read_timeout_seconds s) (incoming_messages s) (_incoming_messages s)
    (logger s).

Definition set_request_id (n : Z) (s : Session) : Session :=
  mkSession (_read_stream s) (_write_stream s) n (_response_streams s)
    (_read_timeout_seconds s) (incoming_messages s) (_incoming_messages s)
    (logger s).

Definition set_response_streams (t : gmap Z (list Reply)) (s : Session) : Session :=
  mkSession (_read_stream s) (_write_stream s) (_request_id s) t
    (_read_timeout_seconds s) (incoming_messages s) (_incoming_messages s)
    (logger s).

Definition set_incoming_messages (i : option ReadStream) (s : Session) : Session :=
  mkSession (_read_stream s) (_write_stream s) (_request_id s)
    (_response_streams s) (_read_timeout_seconds s) i i (logger s).

Definition set_logger (l : list LogRecord) (s : Session) : Session :=
  mkSession (_read_stream s) (_write_stream s) (_request_id s)
    (_response_streams s) (_read_timeout_seconds s) (incoming_messages s)
    (_incoming_messages s) l.

(** ** Effects: state and exceptions *)

Definition M (A : Type) : Type := Session -> Session * Exc A.

Definition ret {A : Type} (a : A) : M A := fun s => (s, Ok a).

Definition raise {A : Type} (e : exn) : M A := fun s => (s, Raise e).

Definition bind {A B : Type} (m : M A) (k : A -> M B) : M B :=
  fun s =>
    match m s with
    | (s', Ok a) => k a s'
    | (s', Raise e) => (s', Raise e)
    end.

(** [try: m except Exception as e: h e]. *)
Definition try_except {A : Type} (m : M A) (h : exn -> M A) : M A :=
  fun s =>
    match m s with
    | (s', Ok a) => (s', Ok a)
    | (s', Raise e) => h e s'
    end.

(** A pure computation that may raise, run inside the session. *)
Definition lift {A : Type} (r : Exc A) : M A := fun s => (s, r).

Notation "'let*' x := m 'in' k" := (bind m (fun x => k))
  (at level 10, x name, m at level 200, k at level 200,
   format "'[v' 'let*'  x  :=  m  'in' '/' k ']'").

Definition logger_log (lvl : Level) (msg : string) : M unit :=
  fun s => (set_logger (logger s ++ [(lvl, msg)]) s, Ok tt).

Definition logger_debug := logger_log DEBUG.
Definition logger_info := logger_log INFO.
Definition logger_warning := logger_log WARNING.
Definition logger_error := logger_log ERROR.
Definition logger_exception := logger_log EXCEPTION.


(** ** The data classes the session builds

    Each takes the [method] the source passes and, where the class has them,
    the [params]. [ClientRequest] and [ClientNotification] are the root-model
    wrappers. *)
Definition ClientRequest (body : ClientBody) : ClientBody := body.
Definition ClientNotification (body : ClientBody) : ClientBody := body.

Definition InitializeRequest (method : string) (params : InitializeRequestParams) :=
  mkClientBody method (InitializeParams params).
Definition InitializedNotification (method : string) := mkClientBody method NoParams.
Definition PingRequest (method : string) := mkClientBody method NoParams.
Definition CompleteRequest (method : string) (params : ClientParams) :=
  mkClientBody method params.

(** [types.CompletionArgument] built from the keyword arguments of a
    dictionary: [name] and [value] must be there and be strings; the
    dictionary is kept for the extra keys the class allows. *)
Definition CompletionArgument_kwargs (argument : dict) : Exc CompletionArgument :=
  match dict_get argument "name", dict_get argument "value" with
  | Some (JStr n), Some (JStr v) => Ok (mkCompletionArgument n v argument)
  | _, _ => Raise (ValidationError "CompletionArgument")
  end.

(** ** BaseSession

    The part of [mcp.shared.session] the client session calls. *)
Section BaseSession.

(** The peer: the reply it gives to a request it reads. *)
Variable peer : JSONRPCMessage -> Reply.

(** [await self._write_stream.send(message)]. *)
Definition write_stream_send (message : JSONRPCMessage) : M unit :=
  fun s => (set_write_stream (_write_stream s ++ [message]) s, Ok tt).

(** Take the next request id and advance the counter. *)
Definition next_request_id : M Z :=
  fun s => (set_request_id (_request_id s + 1) s, Ok (_request_id s)).

(** Register a pending request: an empty response stream under its id. *)
Definition register_pending (request_id : Z) : M unit :=
  fun s => (set_response_streams (<[request_id := []]> (_response_streams s)) s, Ok tt).

(** The caller waits on its response stream. [peer sent] is what the wait
    ends with: the reply the receive loop of the base class hands over, taking
    the entry out of the table of pending requests, or the error that a
    timeout raises, which reaches the caller as an [McpError] like an error
    reply does. Whether a reply gets as far as the caller is not decided
    here: the consumer task reads the same stream as the receive loop, and a
    reply it takes is only logged. *)
Definition await_response (request_id : Z) (sent : JSONRPCMessage) : M Reply :=
  fun s => (set_response_streams (delete request_id (_response_streams s)) s,
            Ok (peer sent)).

(** [BaseSession.send_request]: a fresh id, a pending entry, the request
    envelope on the outbound stream; then the reply, an error reply raised
    as [McpError], a result validated against [result_type]. *)
Definition send_request {R : Type} (request : ClientBody)
    (result_type : ResultClass R) : M R :=
  let* request_id := next_request_id in
  let* _ := register_pending request_id in
  let jsonrpc_request := JSONRPCRequest (IdInt request_id) request in
  let* _ := write_stream_send jsonrpc_request in
  let* response_or_error := await_response request_id jsonrpc_request in
  match response_or_error with
  | ReplyError error => raise (McpError (err_code error) (err_message error))
  | ReplyResult result => lift (result_type result)
  end.

(** [BaseSession.send_notification]: the notification envelope on the
    outbound stream, and nothing awaited. *)
Definition send_notification (notification : ClientBody) : M unit :=
  write_stream_send (JSONRPCNotification notification).

(** [RequestResponder.respond]: a responder that is not entered refuses
    with a [RuntimeError]. An entered one, not answered before, puts the
    response envelope on the outbound stream, under the id of the request
    answered, the result dumped without its null entries. *)
Definition respond (responder : RequestResponder) (response : ClientResult) : M unit :=
  if negb (_entered responder)
  then raise (RuntimeError "RequestResponder must be used as a context manager")
  else write_stream_send
         (JSONRPCResponse (request_id responder) (dump_exclude_none response)).

End BaseSession.

(** ** McpClientSession *)

(** [x in xs] on strings. *)
Fixpoint str_in (x : string) (xs : list string) : bool :=
  match xs with
  | [] => false
  | y :: ys => if String.eqb x y then true else str_in x ys
  end.

Section McpClientSession.

(** [mcp.types.LATEST_PROTOCOL_VERSION],
    [mcp.shared.version.SUPPORTED_PROTOCOL_VERSIONS] and
    [mcp_bridge.__version__]. *)
Variable LATEST_PROTOCOL_VERSION : string.
Variable SUPPORTED_PROTOCOL_VERSIONS : list string.
Variable version : string.

(** [mcp_bridge.utils.message_adapter.wrap_message]. *)
Variable wrap_message : StreamItem -> Exc Message.

(** [mcp_bridge.sampling.sampler.handle_sampling_message]. *)
Variable handle_sampling_message :
  CreateMessageRequestParams -> Exc CreateMessageResult.

Variable peer : JSONRPCMessage -> Reply.

(** [__init__]: the base class takes the streams and the timeout; the
    three attributes of the subclass all name the read stream. The write
    stream is given by what it holds so far. *)
Definition __init__ (read_stream : ReadStream)
    (write_stream : list JSONRPCMessage)
    (read_timeout_seconds : option Z) : Session :=
  {| _read_stream := read_stream;
     _write_stream := write_stream;
     _request_id := 0;
     _response_streams := ∅;
     _read_timeout_seconds := read_timeout_seconds;
     incoming_messages := Some read_stream;
     _incoming_messages := Some read_stream;
     logger := [] |}.

(** [_received_request]: only a sampling request is serviced. *)
Definition sample (params : CreateMessageRequestParams) : M CreateMessageResult :=
  let* _ := logger_info "got sampling request from mcp server" in
  let* resp := lift (handle_sampling_message params) in
  let* _ := logger_info "finished sampling request from mcp server" in
  ret resp.

Definition _received_request (responder : RequestResponder) : M unit :=
  match request responder with
  | CreateMessageRequest params =>
      let* response := sample params in
      let client_response := ClientResult_kwargs (model_dump response) in
      respond responder client_response
  | _ => ret tt
  end.

(** The body of the [async for], inside the inner [try]. *)
Definition process_message (original_message : StreamItem) : M unit :=
  let* message := lift (wrap_message original_message) in
  match message with
  | MsgException _ =>
      logger_error "Received exception in message stream"
  | MsgResponder responder =>
      let* _ := logger_debug "Received request" in
      try_except (_received_request responder)
        (fun req_err => logger_exception "Error handling request")
  | MsgLoggingNotification _ =>
      logger_debug "Received notification from server"
  | MsgRooted _ =>
      logger_debug "Received notification from server"
  | MsgPlain _ =>
      logger_debug "Received message"
  end.

(** One turn of the [async for]: the inner [try] around the body. An
    item whose processing raises [ClosedResourceError] breaks the loop;
    any other exception is logged and the loop goes on. *)
Inductive LoopControl : Type := Continue | Break.

Definition loop_turn (original_message : StreamItem) : M LoopControl :=
  try_except
    (let* _ := process_message original_message in ret Continue)
    (fun e =>
       if is_ClosedResourceError e
       then let* _ := logger_debug "Message stream closed" in ret Break
       else let* _ := logger_exception "Error processing message" in
            ret Continue).

(** The [async for] over the stream. The end of the stream ends the loop;
    what the iteration itself raises leaves it. *)
Fixpoint consume_loop (stream : ReadStream) : M unit :=
  match stream with
  | [] => ret tt
  | IterRaise e :: _ => raise e
  | Yield original_message :: rest =>
      let* control := loop_turn original_message in
      match control with
      | Continue => consume_loop rest
      | Break => ret tt
      end
  end.

(** [_consume_messages]: the guard on [incoming_messages], then the loop
    inside the outer [try]. *)
Definition _consume_messages : M unit :=
  let* _ := logger_info "McpClientSession has incoming_messages" in
  fun s =>
    match incoming_messages s with
    | Some stream =>
        (let* _ := logger_info "incoming_messages type" in
         try_except (consume_loop stream)
           (fun e =>
              if is_ClosedResourceError e
              then logger_debug "Message stream closed"
              else logger_exception "Message consumer task failed")) s
    | None =>
        (let* _ := logger_warning "incoming_messages not found or is None" in
         ret tt) s
    end.

(** [__aenter__], lines 55 to 58: the attribute is set again from
    [_read_stream] when it is missing. The two tasks the method starts are
    not part of this state: the receive loop of the base class, started by the
    call to the base class before these lines, is what delivers replies in
    [await_response]; the consumer task, started after them, is
    [_consume_messages] run on the session this leaves. Entering a session
    twice, which starts the tasks twice, is therefore not described. *)
Definition __aenter__ : M unit :=
  fun s =>
    match incoming_messages s with
    | Some _ => (s, Ok tt)
    | None =>
        logger_debug "SETTING self.incoming_messages"
          (set_incoming_messages (Some (_read_stream s)) s)
    end.

Definition initialize : M InitializeResult :=
  let* result :=
    send_request peer
      (ClientRequest
         (InitializeRequest "initialize"
            (mkInitializeRequestParams
               LATEST_PROTOCOL_VERSION
               (mkClientCapabilities
                  (Some mkSamplingCapability)
                  None
                  (Some (mkRootsCapability (Some true))))
               (mkImplementation "MCP-Bridge" version))))
      types_InitializeResult in
  if negb (str_in (result_protocolVersion result) SUPPORTED_PROTOCOL_VERSIONS)
  then raise (RuntimeError
                ("Unsupported protocol version from the server: "
                 ++ result_protocolVersion result))
  else
    let* _ := send_notification
                (ClientNotification
                   (InitializedNotification "notifications/initialized")) in
    ret result.

Definition send_ping : M EmptyResult :=
  send_request peer (ClientRequest (PingRequest "ping")) types_EmptyResult.










Definition complete (ref : CompletionRef) (argument : dict)
    : M (PayloadResult Complete) :=
  let* completion_argument := lift (CompletionArgument_kwargs argument) in
  send_request peer
    (ClientRequest
       (CompleteRequest "completion/complete"
          (CompleteRequestParams ref completion_argument)))
    types_CompleteResult.



End McpClientSession.

(** ** Observations on a run *)

(** The envelopes a computation adds to the outbound stream. *)
Definition written {A : Type} (m : M A) (s : Session) : list JSONRPCMessage :=
  drop (length (_write_stream s)) (_write_stream (fst (m s))).


(** The session after a request went out and its reply came back. *)
Definition request_sent (request : ClientBody) (s : Session) : Session :=
  set_response_streams
    (delete (_request_id s) (<[_request_id s := []]> (_response_streams s)))
    (set_write_stream
       (_write_stream s ++ [JSONRPCRequest (IdInt (_request_id s)) request])
       (set_request_id (_request_id s + 1) s)).

(** What the caller of [send_request] gets for a reply. *)
Definition outcome {R : Type} (result_type : ResultClass R) (reply : Reply) : Exc R :=
  match reply with
  | ReplyError error => Raise (McpError (err_code error) (err_message error))
  | ReplyResult result => result_type result
  end.

(** The parameters of an Initialize request envelope. *)
Definition initialize_params_of (m : JSONRPCMessage) : option InitializeRequestParams :=
  match m with
  | JSONRPCRequest _ {| params := InitializeParams p |} => Some p
  | _ => None
  end.

(** The protocol version the first envelope of a list declares. *)
Definition declared_protocolVersion (ws : list JSONRPCMessage) : option string :=
  match ws with
  | m :: _ => option_map protocolVersion (initialize_params_of m)
  | [] => None
  end.

(** The body of the Initialize request, as [initialize] builds it. *)
Definition handshake_body (latest version : string) : ClientBody :=
  mkClientBody "initialize"
    (InitializeParams
       (mkInitializeRequestParams latest
          (mkClientCapabilities (Some mkSamplingCapability) None
             (Some (mkRootsCapability (Some true))))
          (mkImplementation "MCP-Bridge" version))).

(** The Initialized notification. *)
Definition initialized_body : ClientBody :=
  mkClientBody "notifications/initialized" NoParams.

(** The session with one more log record. *)
Definition logged (lvl : Level) (msg : string) (s : Session) : Session :=
  set_logger (logger s ++ [(lvl, msg)]) s.

(** Two sessions that differ at most in the log and in the outbound stream:
    the streams read, the id counter and the pending requests agree. *)
Definition same_core (s s' : Session) : Prop :=
  _read_stream s' = _read_stream s /\
  _request_id s' = _request_id s /\
  _response_streams s' = _response_streams s /\
  _read_timeout_seconds s' = _read_timeout_seconds s /\
  incoming_messages s' = incoming_messages s /\
  _incoming_messages s' = _incoming_messages s.

Definition is_sampling (r : ServerRequest) : bool :=
  match r with CreateMessageRequest _ => true | _ => false end.

(** ** Concrete sessions and peers, for the examples *)

Module Examples.

Definition latest : string := "2024-11-05".
Definition supported : list string := ["2024-11-05"].
Definition bridge_version : string := "0.1.0".

Definition server_info : Implementation := mkImplementation "server" "1.0".

(** A peer that negotiates [v] and answers every other request with an
    empty result. *)
Definition peer_negotiating (v : string) (m : JSONRPCMessage) : Reply :=
  match m with
  | JSONRPCRequest _ body =>
      if String.eqb (method body) "initialize"
      then ReplyResult (RawInitialize v server_info)
      else ReplyResult RawEmpty
  | _ => ReplyError (mkErrorData (-32600) "not a request")
  end.

Definition peer_old : JSONRPCMessage -> Reply := peer_negotiating "1999-01-01".
Definition peer_current : JSONRPCMessage -> Reply := peer_negotiating "2024-11-05".

(** An adapter: an exception item stays an exception, except that a closed
    resource is raised; a request becomes a responder, not entered, as a
    responder is when constructed; a logging notification
    is recognised; a notification without a method fails to decode; every
    other envelope is passed on. *)
Definition wrap (item : StreamItem) : Exc Message :=
  match item with
  | ItemException ClosedResourceError => Raise ClosedResourceError
  | ItemException e => Ok (MsgException e)
  | ItemMessage (InRequest id r) =>
      Ok (MsgResponder (mkRequestResponder id r false))
  | ItemMessage (InNotification method params) =>
      if String.eqb method "" then Raise (ValidationError "method")
      else if String.eqb method "notifications/message"
           then Ok (MsgLoggingNotification params)
           else Ok (MsgRooted (InNotification method params))
  | ItemMessage m => Ok (MsgRooted m)
  end.

Definition ask : CreateMessageRequestParams :=
  mkCreateMessageRequestParams ["hello"] 16 None.

Definition answer : CreateMessageResult :=
  mkCreateMessageResult "assistant" (TextContent "hi") "some-model" (Some "endTurn").

(** A handler that answers, and one that raises. *)
Definition handler_ok (p : CreateMessageRequestParams) : Exc CreateMessageResult :=
  Ok answer.

Definition handler_failing (p : CreateMessageRequestParams) : Exc CreateMessageResult :=
  Raise (OtherException "sampling backend unreachable").

Definition fresh : Session := __init__ [] [] None.

(** A session that reads [stream]. *)
Definition reading (stream : ReadStream) : Session := __init__ stream [] None.

(** A session with request [0] sent and its reply still awaited. *)
Definition awaiting : Session :=
  set_response_streams (<[0 := []]> ∅)
    (set_write_stream [JSONRPCRequest (IdInt 0) (mkClientBody "tools/list" NoParams)]
       (set_request_id 1 fresh)).

(** The same session, reading [stream]. *)
Definition awaiting_on (stream : ReadStream) : Session :=
  set_incoming_messages (Some stream) awaiting.

Definition ping_from_peer : StreamItem := ItemMessage (InRequest (IdInt 7) PingRequest_s).

Definition sampling_from_peer : StreamItem :=
  ItemMessage (InRequest (IdInt 3) (CreateMessageRequest ask)).

Definition undecodable : StreamItem := ItemMessage (InNotification "" []).

Definition reply_to_0 : StreamItem := ItemMessage (InResponse (IdInt 0) RawEmpty).

End Examples.

Definition is_warning (r : LogRecord) : bool :=
  match fst r with WARNING => true | _ => false end.

(** [s'] has the log of [s] and, after it, records that are not warnings. *)
Definition log_grows (s s' : Session) : Prop :=
  exists l, logger s' = logger s ++ l /\ existsb is_warning l = false.

(** ** Properties *)

(** ** The consumer task, seen from the peer *)

Definition is_response (m : JSONRPCMessage) : bool :=
  match m with JSONRPCResponse _ _ => true | _ => false end.

Section ConsumerView.

Variable wrap_message : StreamItem -> Exc Message.
Variable handle_sampling_message :
  CreateMessageRequestParams -> Exc CreateMessageResult.

(** The envelope that reading [item] puts on the outbound stream, if any:
    the response to a sampling request whose handler returned, when the
    responder is entered. *)
Definition answer_of (item : StreamItem) : option JSONRPCMessage :=
  match wrap_message item with
  | Ok (MsgResponder responder) =>
      match request responder with
      | CreateMessageRequest p =>
          match handle_sampling_message p with
          | Ok r =>
              if _entered responder
              then Some (JSONRPCResponse (request_id responder)
                           (dump_exclude_none
                              (ClientResult_kwargs (model_dump r))))
              else None
          | Raise _ => None
          end
      | _ => None
      end
  | _ => None
  end.

(** The items the loop gets to: those the stream yields before its iteration
    raises, up to and with the first one on which [wrap_message] raises
    [ClosedResourceError]. *)
Fixpoint items_read (stream : ReadStream) : list StreamItem :=
  match stream with
  | [] => []
  | IterRaise _ :: _ => []
  | Yield item :: rest =>
      match wrap_message item with
      | Raise ClosedResourceError => [item]
      | _ => item :: items_read rest
      end
  end.

End ConsumerView.

Module MoreExamples.

Import Examples.

(** A session whose [incoming_messages] was cleared, with [stream] still
    held in [_read_stream]. *)
Definition unwired (stream : ReadStream) : Session :=
  set_incoming_messages None (reading stream).

Definition two_requests : ReadStream :=
  [Yield sampling_from_peer; Yield ping_from_peer;
   Yield (ItemMessage (InRequest (IdStr "abc") (CreateMessageRequest ask)))].

Definition good_argument : dict :=
  [("name", JStr "language"); ("value", JStr "py"); ("hint", JInt 3)].

Definition argument_without_value : dict := [("name", JStr "language")].

End MoreExamples.

Section BaseSessionFacts.

Variable peer : JSONRPCMessage -> Reply.

Lemma send_request_run {R : Type} (request : ClientBody)
    (result_type : ResultClass R) (s : Session) :
  send_request peer request result_type s =
  (request_sent request s,
   outcome result_type (peer (JSONRPCRequest (IdInt (_request_id s)) request))).
Proof.
  unfold send_request, bind, next_request_id, register_pending,
    write_stream_send, await_response, outcome, raise, lift; simpl.
  destruct (peer _); reflexivity.
Qed.

Lemma send_notification_run (notification : ClientBody) (s : Session) :
  send_notification notification s =
  (set_write_stream (_write_stream s ++ [JSONRPCNotification notification]) s, Ok tt).
Proof. reflexivity. Qed.

Lemma written_app {A : Type} (m : M A) (s : Session) (ws : list JSONRPCMessage) :
  _write_stream (fst (m s)) = _write_stream s ++ ws -> written m s = ws.
Proof.
  intros H. unfold written. rewrite H. apply drop_app_length.
Qed.

Lemma written_send_request {R : Type} (request : ClientBody)
    (result_type : ResultClass R) (s : Session) :
  written (send_request peer request result_type) s =
  [JSONRPCRequest (IdInt (_request_id s)) request].
Proof. apply written_app. rewrite send_request_run. reflexivity. Qed.


End BaseSessionFacts.

Section OutboundCalls.

Variable LATEST_PROTOCOL_VERSION : string.
Variable SUPPORTED_PROTOCOL_VERSIONS : list string.
Variable version : string.
Variable peer : JSONRPCMessage -> Reply.

Local Abbreviation init :=
  (initialize LATEST_PROTOCOL_VERSION SUPPORTED_PROTOCOL_VERSIONS version peer).
Local Abbreviation hello s :=
  (JSONRPCRequest (IdInt (_request_id s))
     (handshake_body LATEST_PROTOCOL_VERSION version)).

(** [initialize], run: the request goes out; an error reply or a reply of
    another shape is raised; a result is checked against the supported
    versions, and only a supported one is followed by the notification. *)
Lemma initialize_run (s : Session) :
  init s =
  let s1 := request_sent (handshake_body LATEST_PROTOCOL_VERSION version) s in
  match outcome types_InitializeResult (peer (hello s)) with
  | Raise e => (s1, Raise e)
  | Ok result =>
      if str_in (result_protocolVersion result) SUPPORTED_PROTOCOL_VERSIONS
      then (set_write_stream
              (_write_stream s1 ++ [JSONRPCNotification initialized_body]) s1,
            Ok result)
      else (s1, Raise (RuntimeError
                         ("Unsupported protocol version from the server: "
                          ++ result_protocolVersion result)%string))
  end.
Proof.
  unfold initialize, bind. rewrite send_request_run.
  unfold ClientRequest, InitializeRequest. fold (handshake_body LATEST_PROTOCOL_VERSION version).
  cbv zeta.
  destruct (outcome types_InitializeResult (peer (hello s))) as [result|e];
    [|reflexivity].
  destruct (str_in (result_protocolVersion result) SUPPORTED_PROTOCOL_VERSIONS);
    reflexivity.
Qed.

Lemma written_initialize (s : Session) :
  written init s =
  hello s ::
  match snd (init s) with
  | Ok _ => [JSONRPCNotification initialized_body]
  | Raise _ => []
  end.
Proof.
  apply written_app. rewrite initialize_run. cbv zeta.
  destruct (outcome types_InitializeResult (peer (hello s))) as [result|e].
  - destruct (str_in (result_protocolVersion result) SUPPORTED_PROTOCOL_VERSIONS);
      simpl; rewrite <- ?app_assoc; reflexivity.
  - reflexivity.
Qed.

(** C10: in every session and against every peer, the Initialize request
    that [initialize] writes declares [LATEST_PROTOCOL_VERSION] as the
    client's protocol version; nothing in the session or the call enters the
    choice. *)
Theorem initialize_declares_latest (s : Session) :
  declared_protocolVersion (written init s) = Some LATEST_PROTOCOL_VERSION.
Proof. rewrite written_initialize. reflexivity. Qed.

(** C7: every call of [initialize] first writes an Initialize request whose
    capabilities have sampling present and [roots.listChanged] true, and whose
    [clientInfo] carries the name and the package version. When the peer's
    result names a supported version, the Initialized notification follows,
    no further request id is spent on it, and the peer's result is returned. *)
Theorem initialize_handshake (s : Session) :
  (exists p rest,
      written init s =
      JSONRPCRequest (IdInt (_request_id s))
        (mkClientBody "initialize" (InitializeParams p)) :: rest /\
      sampling (capabilities p) = Some mkSamplingCapability /\
      roots (capabilities p) = Some (mkRootsCapability (Some true)) /\
      impl_name (clientInfo p) = "MCP-Bridge" /\
      impl_version (clientInfo p) = version) /\
  (forall v info,
      peer (hello s) = ReplyResult (RawInitialize v info) ->
      str_in v SUPPORTED_PROTOCOL_VERSIONS = true ->
      written init s =
      [hello s;
       JSONRPCNotification (mkClientBody "notifications/initialized" NoParams)] /\
      snd (init s) = Ok (mkInitializeResult v info) /\
      _request_id (fst (init s)) = _request_id s + 1).
Proof.
  split.
  - eexists. eexists. split; [apply written_initialize|].
    repeat split; reflexivity.
  - intros v info Hreply Hin.
    assert (Hrun : init s =
                   (set_write_stream
                      (_write_stream
                         (request_sent (handshake_body LATEST_PROTOCOL_VERSION version) s)
                       ++ [JSONRPCNotification initialized_body])
                      (request_sent (handshake_body LATEST_PROTOCOL_VERSION version) s),
                    Ok (mkInitializeResult v info))).
    { rewrite initialize_run. cbv zeta. rewrite Hreply. simpl. rewrite Hin.
      reflexivity. }
    split; [|split].
    + rewrite written_initialize, Hrun. reflexivity.
    + rewrite Hrun. reflexivity.
    + rewrite Hrun. reflexivity.
Qed.

(** C1, amended: when the peer's result names a version outside the supported
    set, [initialize] raises a [RuntimeError] instead of returning, writes no
    Initialized notification, and leaves the session exactly as sending the
    request left it: nothing records a failure, and a later request is not
    refused but written to the peer, under the next id. When the version is
    in the supported set, [initialize] returns the peer's result. *)
Theorem initialize_version_check (s : Session) (v : string) (info : Implementation) :
  peer (hello s) = ReplyResult (RawInitialize v info) ->
  (str_in v SUPPORTED_PROTOCOL_VERSIONS = false ->
   snd (init s) =
   Raise (RuntimeError ("Unsupported protocol version from the server: " ++ v)%string) /\
   written init s = [hello s] /\
   fst (init s) =
   fst (send_request peer (handshake_body LATEST_PROTOCOL_VERSION version)
          types_InitializeResult s) /\
   forall (R : Type) (request : ClientBody) (result_type : ResultClass R),
     written (send_request peer request result_type) (fst (init s)) =
     [JSONRPCRequest (IdInt (_request_id s + 1)) request]) /\
  (str_in v SUPPORTED_PROTOCOL_VERSIONS = true ->
   snd (init s) = Ok (mkInitializeResult v info)).
Proof.
  intros Hreply. split; intros Hin.
  - assert (Hrun : init s =
                   (request_sent (handshake_body LATEST_PROTOCOL_VERSION version) s,
                    Raise (RuntimeError
                             ("Unsupported protocol version from the server: " ++ v)%string))).
    { rewrite initialize_run. cbv zeta. rewrite Hreply. simpl. rewrite Hin.
      reflexivity. }
    split; [|split; [|split]].
    + rewrite Hrun. reflexivity.
    + rewrite written_initialize, Hrun. reflexivity.
    + rewrite Hrun, send_request_run. reflexivity.
    + intros R request result_type. rewrite Hrun. simpl.
      rewrite written_send_request. reflexivity.
  - rewrite initialize_run. cbv zeta. rewrite Hreply. simpl. rewrite Hin.
    reflexivity.
Qed.


End OutboundCalls.

Section SameCore.

Lemma same_core_refl (s : Session) : same_core s s.
Proof. repeat split. Qed.

Lemma same_core_trans (s1 s2 s3 : Session) :
  same_core s1 s2 -> same_core s2 s3 -> same_core s1 s3.
Proof.
  unfold same_core. intros (A1 & A2 & A3 & A4 & A5 & A6) (B1 & B2 & B3 & B4 & B5 & B6).
  repeat split; congruence.
Qed.

Lemma same_core_logged (lvl : Level) (msg : string) (s : Session) :
  same_core s (logged lvl msg s).
Proof. repeat split. Qed.

Lemma same_core_written (ws : list JSONRPCMessage) (s : Session) :
  same_core s (set_write_stream ws s).
Proof. repeat split. Qed.

Lemma logger_log_run (lvl : Level) (msg : string) (s : Session) :
  logger_log lvl msg s = (logged lvl msg s, Ok tt).
Proof. reflexivity. Qed.

Lemma log_grows_refl (s : Session) : log_grows s s.
Proof. exists []. split; [symmetry; apply app_nil_r|reflexivity]. Qed.

Lemma log_grows_trans (s1 s2 s3 : Session) :
  log_grows s1 s2 -> log_grows s2 s3 -> log_grows s1 s3.
Proof.
  intros (l1 & E1 & F1) (l2 & E2 & F2). exists (l1 ++ l2). split.
  - rewrite E2, E1. symmetry. apply app_assoc.
  - rewrite existsb_app, F1, F2. reflexivity.
Qed.

Lemma log_grows_logged (lvl : Level) (msg : string) (s : Session) :
  is_warning (lvl, msg) = false -> log_grows s (logged lvl msg s).
Proof.
  intros H. exists [(lvl, msg)]. split; [reflexivity|].
  simpl. rewrite H. reflexivity.
Qed.

Lemma log_grows_written (ws : list JSONRPCMessage) (s : Session) :
  log_grows s (set_write_stream ws s).
Proof. exists []. split; [symmetry; apply app_nil_r|reflexivity]. Qed.

End SameCore.

(** Chains of log records and writes, closed by the lemmas above. *)
Ltac log_steps :=
  repeat first
    [ apply log_grows_refl
    | (eapply log_grows_trans;
       [|first [ apply log_grows_logged; reflexivity
               | apply log_grows_written ]]) ].

Section Consumer.

Variable wrap_message : StreamItem -> Exc Message.
Variable handle_sampling_message :
  CreateMessageRequestParams -> Exc CreateMessageResult.

Local Abbreviation received := (_received_request handle_sampling_message).
Local Abbreviation process := (process_message wrap_message handle_sampling_message).
Local Abbreviation turn := (loop_turn wrap_message handle_sampling_message).
Local Abbreviation loop := (consume_loop wrap_message handle_sampling_message).
Local Abbreviation consume := (_consume_messages wrap_message handle_sampling_message).

(** [_received_request], by the request and by what the handler does. *)
Lemma received_request_run (responder : RequestResponder) (s : Session) :
  received responder s =
  match request responder with
  | CreateMessageRequest p =>
      let s1 := logged INFO "got sampling request from mcp server" s in
      match handle_sampling_message p with
      | Ok r =>
          let s2 := logged INFO "finished sampling request from mcp server" s1 in
          if _entered responder
          then (set_write_stream
                  (_write_stream s2 ++
                   [JSONRPCResponse (request_id responder)
                      (dump_exclude_none (ClientResult_kwargs (model_dump r)))])
                  s2,
                Ok tt)
          else (s2, Raise (RuntimeError
                             "RequestResponder must be used as a context manager"))
      | Raise e => (s1, Raise e)
      end
  | _ => (s, Ok tt)
  end.
Proof.
  unfold _received_request, sample, respond, bind, lift.
  destruct (request responder) as [|p|]; try reflexivity.
  simpl. destruct (handle_sampling_message p); [|reflexivity].
  destruct (_entered responder); reflexivity.
Qed.

Lemma received_request_same_core (responder : RequestResponder) (s : Session) :
  same_core s (fst (received responder s)).
Proof.
  rewrite received_request_run.
  destruct (request responder) as [|p|]; try apply same_core_refl.
  cbv zeta. destruct (handle_sampling_message p); [|repeat split].
  destruct (_entered responder); repeat split.
Qed.

Lemma received_request_log (responder : RequestResponder) (s : Session) :
  log_grows s (fst (received responder s)).
Proof.
  rewrite received_request_run.
  destruct (request responder) as [|p|]; try apply log_grows_refl.
  cbv zeta. destruct (handle_sampling_message p); [|cbn [fst]; log_steps].
  destruct (_entered responder); cbn [fst]; log_steps.
Qed.

(** The body of the loop raises only what [wrap_message] raises, and then
    has done nothing. *)
Lemma process_message_raise (item : StreamItem) (s s' : Session) (e : exn) :
  process item s = (s', Raise e) ->
  wrap_message item = Raise e /\ s' = s.
Proof.
  unfold process_message, bind, lift.
  destruct (wrap_message item) as [message|e0].
  - destruct message; try (unfold logger_error, logger_debug, logger_log; discriminate).
    unfold logger_debug, logger_log, try_except. simpl.
    destruct (received responder _) as [s1 [[]|e1]]; simpl;
      unfold logger_exception, logger_log; discriminate.
  - intros H. inversion H. split; reflexivity.
Qed.

Lemma process_message_wrap_raise (item : StreamItem) (s : Session) (e : exn) :
  wrap_message item = Raise e -> process item s = (s, Raise e).
Proof. intros H. unfold process_message, bind, lift. rewrite H. reflexivity. Qed.

Lemma process_message_same_core (item : StreamItem) (s : Session) :
  same_core s (fst (process item s)).
Proof.
  unfold process_message, bind, lift.
  destruct (wrap_message item) as [message|e0]; [|apply same_core_refl].
  destruct message; try solve [repeat split].
  unfold logger_debug, try_except. rewrite logger_log_run.
  pose proof (received_request_same_core responder
                (logged DEBUG "Received request" s)) as H.
  destruct (received responder _) as [s1 [[]|e1]];
    unfold same_core in *; simpl in *; exact H.
Qed.

(** The body of the loop, by what [wrap_message] hands back. *)
Lemma process_message_run (item : StreamItem) (s : Session) :
  process item s =
  match wrap_message item with
  | Raise e => (s, Raise e)
  | Ok (MsgException _) =>
      (logged ERROR "Received exception in message stream" s, Ok tt)
  | Ok (MsgResponder responder) =>
      match received responder (logged DEBUG "Received request" s) with
      | (s', Ok _) => (s', Ok tt)
      | (s', Raise _) => (logged EXCEPTION "Error handling request" s', Ok tt)
      end
  | Ok (MsgLoggingNotification _) | Ok (MsgRooted _) =>
      (logged DEBUG "Received notification from server" s, Ok tt)
  | Ok (MsgPlain _) => (logged DEBUG "Received message" s, Ok tt)
  end.
Proof.
  unfold process_message, bind, lift.
  destruct (wrap_message item) as [message|e]; [|reflexivity].
  destruct message; try reflexivity.
  unfold logger_debug, try_except. rewrite logger_log_run.
  destruct (received responder _) as [s' [[]|e]]; reflexivity.
Qed.

Lemma process_message_log (item : StreamItem) (s : Session) :
  log_grows s (fst (process item s)).
Proof.
  rewrite process_message_run.
  destruct (wrap_message item) as [message|e]; [|apply log_grows_refl].
  destruct message; cbn [fst]; try solve [log_steps].
  pose proof (received_request_log responder
                (logged DEBUG "Received request" s)) as H.
  destruct (received responder _) as [s' [[]|e]]; cbn [fst] in *.
  - eapply log_grows_trans; [|exact H]. log_steps.
  - eapply log_grows_trans; [|apply log_grows_logged; reflexivity].
    eapply log_grows_trans; [|exact H]. log_steps.
Qed.

(** One turn of the loop, by what the body does. *)
Lemma loop_turn_run (item : StreamItem) (s : Session) :
  turn item s =
  match process item s with
  | (s', Ok _) => (s', Ok Continue)
  | (s', Raise e) =>
      if is_ClosedResourceError e
      then (logged DEBUG "Message stream closed" s', Ok Break)
      else (logged EXCEPTION "Error processing message" s', Ok Continue)
  end.
Proof.
  unfold loop_turn, try_except, bind.
  destruct (process item s) as [s' [[]|e]]; [reflexivity|].
  destruct (is_ClosedResourceError e); reflexivity.
Qed.

Lemma loop_turn_same_core (item : StreamItem) (s : Session) :
  same_core s (fst (turn item s)).
Proof.
  rewrite loop_turn_run.
  pose proof (process_message_same_core item s) as H.
  destruct (process item s) as [s' [[]|e]]; simpl in *; [exact H|].
  destruct (is_ClosedResourceError e); unfold same_core in *; simpl; exact H.
Qed.

Lemma loop_turn_log (item : StreamItem) (s : Session) :
  log_grows s (fst (turn item s)).
Proof.
  rewrite loop_turn_run.
  pose proof (process_message_log item s) as H.
  destruct (process item s) as [s' [[]|e]]; cbn [fst] in *; [exact H|].
  destruct (is_ClosedResourceError e); cbn [fst];
    (eapply log_grows_trans; [exact H|apply log_grows_logged; reflexivity]).
Qed.

Lemma loop_turn_never_raises (item : StreamItem) (s : Session) :
  exists c, snd (turn item s) = Ok c.
Proof.
  rewrite loop_turn_run.
  destruct (process item s) as [s' [[]|e]]; [eauto|].
  destruct (is_ClosedResourceError e); eauto.
Qed.

Lemma consume_loop_yield (item : StreamItem) (rest : ReadStream) (s : Session) :
  loop (Yield item :: rest) s =
  match turn item s with
  | (s', Ok Continue) => loop rest s'
  | (s', Ok Break) => (s', Ok tt)
  | (s', Raise e) => (s', Raise e)
  end.
Proof.
  simpl. unfold bind.
  destruct (turn item s) as [s' [[]|e]]; reflexivity.
Qed.

Lemma consume_loop_same_core (stream : ReadStream) (s : Session) :
  same_core s (fst (loop stream s)).
Proof.
  revert s. induction stream as [|[item|e] rest IH]; intros s.
  - apply same_core_refl.
  - rewrite consume_loop_yield.
    pose proof (loop_turn_same_core item s) as H.
    destruct (turn item s) as [s' [[]|e]]; simpl in *; try exact H.
    eapply same_core_trans; [exact H|apply IH].
  - apply same_core_refl.
Qed.

Lemma consume_loop_log (stream : ReadStream) (s : Session) :
  log_grows s (fst (loop stream s)).
Proof.
  revert s. induction stream as [|[item|e] rest IH]; intros s.
  - apply log_grows_refl.
  - rewrite consume_loop_yield.
    pose proof (loop_turn_log item s) as H.
    destruct (turn item s) as [s' [[]|e]]; cbn [fst] in *; try exact H.
    eapply log_grows_trans; [exact H|apply IH].
  - apply log_grows_refl.
Qed.

(** The loop raises only what the iteration of the stream raised. *)
Lemma consume_loop_raise (stream : ReadStream) (s s' : Session) (e : exn) :
  loop stream s = (s', Raise e) -> In (IterRaise e) stream.
Proof.
  revert s. induction stream as [|[item|e0] rest IH]; intros s.
  - discriminate.
  - rewrite consume_loop_yield.
    destruct (loop_turn_never_raises item s) as [c Hc].
    destruct (turn item s) as [s1 r]. simpl in Hc. subst r.
    destruct c; [|discriminate].
    intros H. right. eapply IH. exact H.
  - simpl. unfold raise. intros H. inversion H. left. reflexivity.
Qed.

(** A responder item, by what [_received_request] does with it. *)
Lemma loop_turn_responder (item : StreamItem) (responder : RequestResponder)
    (s : Session) :
  wrap_message item = Ok (MsgResponder responder) ->
  turn item s =
  match received responder (logged DEBUG "Received request" s) with
  | (s', Ok _) => (s', Ok Continue)
  | (s', Raise _) => (logged EXCEPTION "Error handling request" s', Ok Continue)
  end.
Proof.
  intros Hw. rewrite loop_turn_run.
  unfold process_message, bind, lift. rewrite Hw.
  unfold logger_debug, try_except. rewrite logger_log_run.
  destruct (received responder _) as [s' [[]|e]]; reflexivity.
Qed.

(** C2, amended: a peer's request that is not a sampling request is not
    answered. [_received_request] returns at once and leaves the session as
    it was; the consumer loop logs the request, writes nothing to the peer,
    neither a result nor an error, and goes on. *)
Theorem unserviced_request_unanswered (responder : RequestResponder) (s : Session) :
  is_sampling (request responder) = false ->
  received responder s = (s, Ok tt) /\
  forall item,
    wrap_message item = Ok (MsgResponder responder) ->
    turn item s = (logged DEBUG "Received request" s, Ok Continue) /\
    written (turn item) s = [].
Proof.
  intros Hns.
  assert (Hrun : forall s0, received responder s0 = (s0, Ok tt)).
  { intros s0. rewrite received_request_run.
    destruct (request responder); [reflexivity|discriminate|reflexivity]. }
  split; [apply Hrun|].
  intros item Hw.
  assert (Ht : turn item s = (logged DEBUG "Received request" s, Ok Continue)).
  { rewrite (loop_turn_responder item responder s Hw), Hrun. reflexivity. }
  split; [exact Ht|].
  unfold written. rewrite Ht. simpl. apply drop_all.
Qed.

(** C4, on the code: when the peer sends a sampling request with parameters
    [p] and the handler returns [r] for [p], [_received_request] does call
    [respond] with [r] repackaged as a client result, but on a responder it
    never entered. [respond] refuses with a [RuntimeError], which the guard
    of the consumer loop logs: no response envelope is written for the
    request, and the loop goes on. *)
Theorem sampling_response_not_written (responder : RequestResponder)
    (p : CreateMessageRequestParams) (r : CreateMessageResult) (s : Session) :
  request responder = CreateMessageRequest p ->
  handle_sampling_message p = Ok r ->
  _entered responder = false ->
  received responder s =
  (logged INFO "finished sampling request from mcp server"
     (logged INFO "got sampling request from mcp server" s),
   Raise (RuntimeError "RequestResponder must be used as a context manager")) /\
  written (received responder) s = [] /\
  forall item rest,
    wrap_message item = Ok (MsgResponder responder) ->
    written (turn item) s = [] /\
    loop (Yield item :: rest) s =
    loop rest
      (logged EXCEPTION "Error handling request"
         (logged INFO "finished sampling request from mcp server"
            (logged INFO "got sampling request from mcp server"
               (logged DEBUG "Received request" s)))).
Proof.
  intros Hreq Hh Hent.
  assert (Hrun : forall s0,
             received responder s0 =
             (logged INFO "finished sampling request from mcp server"
                (logged INFO "got sampling request from mcp server" s0),
              Raise (RuntimeError
                       "RequestResponder must be used as a context manager"))).
  { intros s0. rewrite received_request_run, Hreq. cbv zeta. rewrite Hh, Hent.
    reflexivity. }
  split; [apply Hrun|].
  split; [unfold written; rewrite Hrun; apply drop_all|].
  intros item rest Hw.
  pose proof (loop_turn_responder item responder s Hw) as Ht.
  rewrite Hrun in Ht.
  split.
  - unfold written. rewrite Ht. apply drop_all.
  - rewrite consume_loop_yield, Ht. reflexivity.
Qed.

(** C5, amended: when the handler raises while a sampling request is
    serviced, the exception leaves [_received_request] and is caught by the
    guard the consumer loop keeps around it, where it is logged. Nothing is
    written to the peer for that request, whatever the exception is, and the
    loop goes on with the next item. *)
Theorem handler_error_swallowed (responder : RequestResponder)
    (p : CreateMessageRequestParams) (e : exn) (s : Session) :
  request responder = CreateMessageRequest p ->
  handle_sampling_message p = Raise e ->
  snd (received responder s) = Raise e /\
  written (received responder) s = [] /\
  forall item rest,
    wrap_message item = Ok (MsgResponder responder) ->
    written (turn item) s = [] /\
    loop (Yield item :: rest) s =
    loop rest
      (logged EXCEPTION "Error handling request"
         (logged INFO "got sampling request from mcp server"
            (logged DEBUG "Received request" s))).
Proof.
  intros Hreq Hh.
  assert (Hrun : forall s0,
             received responder s0 =
             (logged INFO "got sampling request from mcp server" s0, Raise e)).
  { intros s0. rewrite received_request_run, Hreq. cbv zeta. rewrite Hh.
    reflexivity. }
  split; [rewrite Hrun; reflexivity|].
  split; [unfold written; rewrite Hrun; apply drop_all|].
  intros item rest Hw.
  assert (Ht : turn item s =
               (logged EXCEPTION "Error handling request"
                  (logged INFO "got sampling request from mcp server"
                     (logged DEBUG "Received request" s)), Ok Continue)).
  { rewrite (loop_turn_responder item responder s Hw), Hrun. reflexivity. }
  split.
  - unfold written. rewrite Ht. apply drop_all.
  - rewrite consume_loop_yield, Ht. reflexivity.
Qed.

(** [_consume_messages], by what the loop does on the stream the session
    holds. *)
Lemma consume_messages_run (s : Session) (stream : ReadStream) :
  incoming_messages s = Some stream ->
  consume s =
  match loop stream
          (logged INFO "incoming_messages type"
             (logged INFO "McpClientSession has incoming_messages" s)) with
  | (s', Ok _) => (s', Ok tt)
  | (s', Raise e) =>
      if is_ClosedResourceError e
      then (logged DEBUG "Message stream closed" s', Ok tt)
      else (logged EXCEPTION "Message consumer task failed" s', Ok tt)
  end.
Proof.
  intros Hin.
  unfold _consume_messages, bind, logger_info, logger_debug, logger_exception,
    logger_log, try_except, logged.
  cbv beta iota. simpl incoming_messages. rewrite Hin.
  destruct (loop stream _) as [s' [[]|e]]; [reflexivity|].
  destruct (is_ClosedResourceError e); reflexivity.
Qed.

Lemma consume_messages_guard (s : Session) :
  incoming_messages s = None ->
  consume s =
  (logged WARNING "incoming_messages not found or is None"
     (logged INFO "McpClientSession has incoming_messages" s), Ok tt).
Proof.
  intros Hin.
  unfold _consume_messages, bind, logger_info, logger_warning, logger_log, logged.
  cbv beta iota. simpl incoming_messages. rewrite Hin. reflexivity.
Qed.

(** C3, amended: an item whose processing raises anything but
    [ClosedResourceError], and an item that is an exception object, is logged
    and skipped, and the loop goes on with the next item. An item whose
    processing raises [ClosedResourceError] ends the loop: the items after it
    are not read. The loop resolves no pending request: a response item is
    logged like a notification, and the table of pending requests is the
    same after the loop as before. *)
Theorem bad_item_skipped (item : StreamItem) (rest : ReadStream) (s : Session) :
  (forall s' e,
      process item s = (s', Raise e) ->
      is_ClosedResourceError e = false ->
      loop (Yield item :: rest) s =
      loop rest (logged EXCEPTION "Error processing message" s)) /\
  (forall e,
      wrap_message item = Ok (MsgException e) ->
      loop (Yield item :: rest) s =
      loop rest (logged ERROR "Received exception in message stream" s)) /\
  (forall s',
      process item s = (s', Raise ClosedResourceError) ->
      loop (Yield item :: rest) s =
      (logged DEBUG "Message stream closed" s, Ok tt)) /\
  (forall m,
      wrap_message item = Ok (MsgRooted m) ->
      loop (Yield item :: rest) s =
      loop rest (logged DEBUG "Received notification from server" s)) /\
  _response_streams (fst (loop (Yield item :: rest) s)) = _response_streams s.
Proof.
  split; [|split; [|split; [|split]]].
  - intros s' e Hp Hne.
    destruct (process_message_raise item s s' e Hp) as [_ ->].
    rewrite consume_loop_yield, loop_turn_run, Hp, Hne. reflexivity.
  - intros e Hw.
    rewrite consume_loop_yield, loop_turn_run.
    unfold process_message, bind, lift. rewrite Hw. reflexivity.
  - intros s' Hp.
    destruct (process_message_raise item s s' _ Hp) as [_ ->].
    rewrite consume_loop_yield, loop_turn_run, Hp. reflexivity.
  - intros m Hw.
    rewrite consume_loop_yield, loop_turn_run.
    unfold process_message, bind, lift. rewrite Hw. reflexivity.
  - apply (consume_loop_same_core (Yield item :: rest) s).
Qed.

(** C8, amended: [_consume_messages] never raises. When the stream ends, or
    its iteration raises [ClosedResourceError], it returns with at most a
    debug record; when the iteration raises anything else it logs
    "Message consumer task failed" and returns as well. Only what the
    iteration itself raised reaches this outer guard. The session is not
    marked in any way: the streams it reads, the id counter and the pending
    requests are those the task started with. *)
Theorem consumer_exit (s : Session) :
  snd (consume s) = Ok tt /\
  same_core s (fst (consume s)) /\
  forall stream,
    incoming_messages s = Some stream ->
    forall s' r,
      loop stream
        (logged INFO "incoming_messages type"
           (logged INFO "McpClientSession has incoming_messages" s)) = (s', r) ->
      match r with
      | Ok _ => consume s = (s', Ok tt)
      | Raise ClosedResourceError =>
          In (IterRaise ClosedResourceError) stream /\
          consume s = (logged DEBUG "Message stream closed" s', Ok tt)
      | Raise e =>
          In (IterRaise e) stream /\
          consume s = (logged EXCEPTION "Message consumer task failed" s', Ok tt)
      end.
Proof.
  destruct (incoming_messages s) as [stream0|] eqn:Hin.
  - pose proof (consume_messages_run s stream0 Hin) as Hrun.
    pose proof (consume_loop_same_core stream0
                  (logged INFO "incoming_messages type"
                     (logged INFO "McpClientSession has incoming_messages" s)))
      as Hcore.
    split; [|split].
    + rewrite Hrun. destruct (loop stream0 _) as [s' [[]|e]]; [reflexivity|].
      destruct (is_ClosedResourceError e); reflexivity.
    + rewrite Hrun. destruct (loop stream0 _) as [s' [[]|e]]; simpl in *.
      * unfold same_core in *; simpl in *; exact Hcore.
      * destruct (is_ClosedResourceError e);
          unfold same_core in *; simpl in *; exact Hcore.
    + intros stream Hs s' r Hl. inversion Hs; subst stream0.
      rewrite Hrun, Hl.
      destruct r as [[]|e]; [reflexivity|].
      pose proof (consume_loop_raise _ _ _ _ Hl) as HIn.
      destruct e; split; try exact HIn; reflexivity.
  - rewrite (consume_messages_guard s Hin).
    split; [reflexivity|]. split; [repeat split|].
    intros stream Hs. discriminate.
Qed.

(** On a session that holds a stream, the consumer task logs no warning. *)
Lemma consume_messages_log (s : Session) (stream : ReadStream) :
  incoming_messages s = Some stream -> log_grows s (fst (consume s)).
Proof.
  intros Hin. rewrite (consume_messages_run s stream Hin).
  pose proof (consume_loop_log stream
                (logged INFO "incoming_messages type"
                   (logged INFO "McpClientSession has incoming_messages" s)))
    as H.
  assert (H0 : log_grows s
                 (logged INFO "incoming_messages type"
                    (logged INFO "McpClientSession has incoming_messages" s)))
    by log_steps.
  destruct (loop stream _) as [s' [[]|e]]; cbn [fst] in *.
  - eapply log_grows_trans; [exact H0|exact H].
  - destruct (is_ClosedResourceError e); cbn [fst];
      (eapply log_grows_trans; [|apply log_grows_logged; reflexivity]);
      (eapply log_grows_trans; [exact H0|exact H]).
Qed.

(** C9: a session built by [__init__] holds the read stream in
    [incoming_messages], and [__aenter__] leaves it so. The consumer task
    started on it never takes the guard's early return: it runs the loop over
    the read stream, what it returns is what the loop did there, and no
    warning, the guard's least of all, is in the log. *)
Theorem constructed_session_consumes (read_stream : ReadStream)
    (write_stream : list JSONRPCMessage) (read_timeout_seconds : option Z) :
  let s := __init__ read_stream write_stream read_timeout_seconds in
  incoming_messages s = Some read_stream /\
  __aenter__ s = (s, Ok tt) /\
  consume s =
  match loop read_stream
          (logged INFO "incoming_messages type"
             (logged INFO "McpClientSession has incoming_messages" s)) with
  | (s', Ok _) => (s', Ok tt)
  | (s', Raise e) =>
      if is_ClosedResourceError e
      then (logged DEBUG "Message stream closed" s', Ok tt)
      else (logged EXCEPTION "Message consumer task failed" s', Ok tt)
  end /\
  existsb is_warning (logger (fst (consume s))) = false.
Proof.
  intros s.
  split; [reflexivity|]. split; [reflexivity|].
  split; [apply consume_messages_run; reflexivity|].
  destruct (consume_messages_log s read_stream eq_refl) as (l & El & Fl).
  rewrite El. exact Fl.
Qed.

End Consumer.

(** ** The theorems at concrete sessions *)

Import Examples.

(** The handshake against a peer that negotiates the current version. *)
Lemma initialize_handshake_witness :
  written (initialize latest supported bridge_version peer_current) fresh =
  [JSONRPCRequest (IdInt 0) (handshake_body latest bridge_version);
   JSONRPCNotification (mkClientBody "notifications/initialized" NoParams)] /\
  snd (initialize latest supported bridge_version peer_current fresh) =
  Ok (mkInitializeResult "2024-11-05" server_info) /\
  _request_id (fst (initialize latest supported bridge_version peer_current fresh)) =
  0 + 1.
Proof.
  apply (proj2 (initialize_handshake latest supported bridge_version
                  peer_current fresh) "2024-11-05" server_info);
    reflexivity.
Defined.

(** The version check against a peer that negotiates an old version, and
    against one that negotiates the current version. *)
Lemma initialize_version_check_witness :
  snd (initialize latest supported bridge_version peer_old fresh) =
  Raise (RuntimeError "Unsupported protocol version from the server: 1999-01-01") /\
  snd (initialize latest supported bridge_version peer_current fresh) =
  Ok (mkInitializeResult "2024-11-05" server_info).
Proof.
  split.
  - apply (proj1 (initialize_version_check latest supported bridge_version
                    peer_old fresh "1999-01-01" server_info eq_refl)).
    reflexivity.
  - apply (proj2 (initialize_version_check latest supported bridge_version
                    peer_current fresh "2024-11-05" server_info eq_refl)).
    reflexivity.
Defined.

(** C1, as stated, fails: after a handshake that failed on the version, the
    session does not refuse a ping. The request goes out to the peer, under
    the next id. *)
Lemma failed_handshake_permits_calls :
  str_in "1999-01-01" supported = false /\
  snd (initialize latest supported bridge_version peer_old fresh) =
  Raise (RuntimeError "Unsupported protocol version from the server: 1999-01-01") /\
  _write_stream
    (fst (send_ping peer_old
            (fst (initialize latest supported bridge_version peer_old fresh)))) =
  [JSONRPCRequest (IdInt 0) (handshake_body latest bridge_version);
   JSONRPCRequest (IdInt 1) (mkClientBody "ping" NoParams)].
Proof. repeat split; vm_compute; reflexivity. Qed.

(** A ping from the peer. *)
Lemma unserviced_request_unanswered_witness :
  _received_request handler_ok (mkRequestResponder (IdInt 7) PingRequest_s false) fresh =
  (fresh, Ok tt) /\
  written (loop_turn wrap handler_ok ping_from_peer) fresh = [].
Proof.
  destruct (unserviced_request_unanswered wrap handler_ok
              (mkRequestResponder (IdInt 7) PingRequest_s false) fresh eq_refl)
    as [H1 H2].
  split; [exact H1|].
  exact (proj2 (H2 ping_from_peer eq_refl)).
Defined.

(** C2, as stated, fails: the peer's ping, request 7, goes through the
    consumer task and nothing at all is written back, so no error envelope
    for request 7 either. *)
Lemma ping_from_peer_unanswered :
  _consume_messages wrap handler_ok (reading [Yield ping_from_peer]) =
  (set_logger
     [(INFO, "McpClientSession has incoming_messages");
      (INFO, "incoming_messages type");
      (DEBUG, "Received request")]
     (reading [Yield ping_from_peer]), Ok tt) /\
  _write_stream
    (fst (_consume_messages wrap handler_ok (reading [Yield ping_from_peer]))) = [].
Proof. split; vm_compute; reflexivity. Qed.

(** A sampling request whose handler returns. *)
Lemma sampling_response_not_written_witness :
  written (_received_request handler_ok
             (mkRequestResponder (IdInt 3) (CreateMessageRequest ask) false))
    fresh = [] /\
  written (loop_turn wrap handler_ok sampling_from_peer) fresh = [].
Proof.
  destruct (sampling_response_not_written wrap handler_ok
              (mkRequestResponder (IdInt 3) (CreateMessageRequest ask) false)
              ask answer fresh eq_refl eq_refl eq_refl)
    as (_ & H1 & H2).
  split; [exact H1|].
  exact (proj1 (H2 sampling_from_peer [] eq_refl)).
Defined.

(** A sampling request whose handler raises. *)
Lemma handler_error_swallowed_witness :
  snd (_received_request handler_failing
         (mkRequestResponder (IdInt 3) (CreateMessageRequest ask) false) fresh) =
  Raise (OtherException "sampling backend unreachable") /\
  written (loop_turn wrap handler_failing sampling_from_peer) fresh = [].
Proof.
  destruct (handler_error_swallowed wrap handler_failing
              (mkRequestResponder (IdInt 3) (CreateMessageRequest ask) false)
              ask (OtherException "sampling backend unreachable") fresh
              eq_refl eq_refl)
    as (H1 & _ & H2).
  split; [exact H1|].
  exact (proj1 (H2 sampling_from_peer [] eq_refl)).
Defined.

(** C5, as stated, fails: the handler raises on request 3, the consumer task
    logs it and returns, and the outbound stream stays empty: no error
    envelope goes to the peer. *)
Lemma handler_error_not_reported :
  _consume_messages wrap handler_failing (reading [Yield sampling_from_peer]) =
  (set_logger
     [(INFO, "McpClientSession has incoming_messages");
      (INFO, "incoming_messages type");
      (DEBUG, "Received request");
      (INFO, "got sampling request from mcp server");
      (EXCEPTION, "Error handling request")]
     (reading [Yield sampling_from_peer]), Ok tt) /\
  _write_stream
    (fst (_consume_messages wrap handler_failing
            (reading [Yield sampling_from_peer]))) = [].
Proof. split; vm_compute; reflexivity. Qed.

(** Items that are skipped, an item that ends the loop, and a response that
    is only logged. *)
Lemma bad_item_skipped_witness :
  consume_loop wrap handler_ok [Yield undecodable; Yield reply_to_0] fresh =
  consume_loop wrap handler_ok [Yield reply_to_0]
    (logged EXCEPTION "Error processing message" fresh) /\
  consume_loop wrap handler_ok
    [Yield (ItemException (OtherException "decode")); Yield reply_to_0] fresh =
  consume_loop wrap handler_ok [Yield reply_to_0]
    (logged ERROR "Received exception in message stream" fresh) /\
  consume_loop wrap handler_ok
    [Yield (ItemException ClosedResourceError); Yield reply_to_0] fresh =
  (logged DEBUG "Message stream closed" fresh, Ok tt) /\
  consume_loop wrap handler_ok [Yield reply_to_0] fresh =
  consume_loop wrap handler_ok []
    (logged DEBUG "Received notification from server" fresh).
Proof.
  split; [|split; [|split]].
  - apply (proj1 (bad_item_skipped wrap handler_ok undecodable
                    [Yield reply_to_0] fresh)
             fresh (ValidationError "method")); reflexivity.
  - apply (proj1 (proj2 (bad_item_skipped wrap handler_ok
                           (ItemException (OtherException "decode"))
                           [Yield reply_to_0] fresh))
             (OtherException "decode")); reflexivity.
  - apply (proj1 (proj2 (proj2 (bad_item_skipped wrap handler_ok
                                  (ItemException ClosedResourceError)
                                  [Yield reply_to_0] fresh)))
             fresh); reflexivity.
  - apply (proj1 (proj2 (proj2 (proj2 (bad_item_skipped wrap handler_ok
                                         reply_to_0 [] fresh))))
             (InResponse (IdInt 0) RawEmpty)); reflexivity.
Defined.

(** C3, as stated, fails: a valid response that follows an undecodable item
    is read and logged, but it resolves nothing: request 0 is as pending
    after the consumer task as before. *)
Lemma reply_after_bad_item_unresolved :
  _response_streams (awaiting_on [Yield undecodable; Yield reply_to_0]) !! 0 =
  Some [] /\
  _response_streams
    (fst (_consume_messages wrap handler_ok
            (awaiting_on [Yield undecodable; Yield reply_to_0]))) !! 0 =
  Some [] /\
  logger
    (fst (_consume_messages wrap handler_ok
            (awaiting_on [Yield undecodable; Yield reply_to_0]))) =
  [(INFO, "McpClientSession has incoming_messages");
   (INFO, "incoming_messages type");
   (EXCEPTION, "Error processing message");
   (DEBUG, "Received notification from server")].
Proof. repeat split; vm_compute; reflexivity. Qed.

(** The exits of the consumer task on a stream whose iteration fails. *)
Lemma consumer_exit_witness :
  In (IterRaise (OtherException "transport broke"))
     [IterRaise (OtherException "transport broke")] /\
  _consume_messages wrap handler_ok
    (reading [IterRaise (OtherException "transport broke")]) =
  (logged EXCEPTION "Message consumer task failed"
     (logged INFO "incoming_messages type"
        (logged INFO "McpClientSession has incoming_messages"
           (reading [IterRaise (OtherException "transport broke")]))),
   Ok tt).
Proof.
  exact (proj2 (proj2 (consumer_exit wrap handler_ok
                         (reading [IterRaise (OtherException "transport broke")])))
           [IterRaise (OtherException "transport broke")] eq_refl
           _ (Raise (OtherException "transport broke")) eq_refl).
Defined.

(** C8, as stated, fails: when the iteration of the stream raises, the
    consumer task logs the failure and returns like any other return. It
    does not raise, and nothing marks the session: but for the three log
    records it is the session the task started with. *)
Lemma iteration_error_returns_normally :
  _consume_messages wrap handler_ok
    (reading [IterRaise (OtherException "transport broke")]) =
  (set_logger
     [(INFO, "McpClientSession has incoming_messages");
      (INFO, "incoming_messages type");
      (EXCEPTION, "Message consumer task failed")]
     (reading [IterRaise (OtherException "transport broke")]), Ok tt).
Proof. vm_compute; reflexivity. Qed.

(** ** Further properties of the consumer task and the calls *)

Section ConsumerOutput.

Variable wrap_message : StreamItem -> Exc Message.
Variable handle_sampling_message :
  CreateMessageRequestParams -> Exc CreateMessageResult.

Local Abbreviation received := (_received_request handle_sampling_message).
Local Abbreviation process := (process_message wrap_message handle_sampling_message).
Local Abbreviation turn := (loop_turn wrap_message handle_sampling_message).
Local Abbreviation loop := (consume_loop wrap_message handle_sampling_message).
Local Abbreviation consume := (_consume_messages wrap_message handle_sampling_message).
Local Abbreviation answer := (answer_of wrap_message handle_sampling_message).
Local Abbreviation reads := (items_read wrap_message).

(** One turn of the loop: what it writes, whether the loop goes on, and that
    it logs. *)
Lemma loop_turn_effect (item : StreamItem) (s : Session) :
  _write_stream (fst (turn item s)) = _write_stream s ++ option_list (answer item) /\
  snd (turn item s) =
  Ok (match wrap_message item with
      | Raise ClosedResourceError => Break
      | _ => Continue
      end) /\
  (length (logger s) < length (logger (fst (turn item s))))%nat.
Proof.
  rewrite loop_turn_run, process_message_run. unfold answer_of.
  destruct (wrap_message item) as [message|e].
  - destruct message;
      try (cbn; rewrite ?app_nil_r, ?length_app; cbn; repeat split; lia).
    rewrite received_request_run.
    destruct (request responder) as [|p|];
      try (cbn; rewrite ?app_nil_r, ?length_app; cbn; repeat split; lia).
    cbv zeta.
    destruct (handle_sampling_message p);
      [destruct (_entered responder)|];
      cbn; rewrite ?app_nil_r, ?length_app; cbn; repeat split; lia.
  - destruct e; cbn; rewrite ?app_nil_r, ?length_app; cbn; repeat split; lia.
Qed.

Lemma omap_cons_list {A B : Type} (f : A -> option B) (x : A) (l : list A) :
  omap f (x :: l) = option_list (f x) ++ omap f l.
Proof. cbn. destruct (f x); reflexivity. Qed.

Lemma consume_loop_effect (stream : ReadStream) (s : Session) :
  _write_stream (fst (loop stream s)) =
  _write_stream s ++ omap answer (reads stream) /\
  (length (logger s) + length (reads stream)
   <= length (logger (fst (loop stream s))))%nat.
Proof.
  revert s. induction stream as [|[item|e] rest IH]; intros s.
  - cbn. rewrite app_nil_r. split; [reflexivity|lia].
  - rewrite consume_loop_yield.
    destruct (loop_turn_effect item s) as (Hw & Hc & Hl).
    destruct (turn item s) as [s' r]. cbn [fst snd] in Hw, Hc, Hl. subst r.
    destruct (IH s') as [IHw IHl].
    cbn [items_read].
    destruct (wrap_message item) as [m|e] eqn:Hwrap.
    + rewrite omap_cons_list, app_assoc, <- Hw, <- IHw.
      split; [reflexivity|]. cbn [length]. lia.
    + destruct e;
        try (rewrite omap_cons_list, app_assoc, <- Hw, <- IHw;
             split; [reflexivity|cbn [length]; lia]).
      rewrite omap_cons_list. cbn [omap list_omap]. rewrite app_nil_r, <- Hw.
      split; [reflexivity|]. cbn. lia.
  - cbn. rewrite app_nil_r. split; [reflexivity|lia].
Qed.

Lemma answer_is_response (item : StreamItem) (m : JSONRPCMessage) :
  answer item = Some m -> is_response m = true.
Proof.
  unfold answer_of.
  destruct (wrap_message item) as [[| responder | | |]|]; try discriminate.
  destruct (request responder) as [|p|]; try discriminate.
  destruct (handle_sampling_message p); [|discriminate].
  destruct (_entered responder); [|discriminate].
  intros H. inversion H. reflexivity.
Qed.

Lemma answers_are_responses (items : list StreamItem) :
  forallb is_response (omap answer items) = true /\
  (length (omap answer items) <= length items)%nat.
Proof.
  induction items as [|item items [IH1 IH2]]; [split; [reflexivity|cbn; lia]|].
  rewrite omap_cons_list.
  destruct (answer item) as [m|] eqn:Ha; cbn.
  - rewrite (answer_is_response item m Ha). split; [exact IH1|lia].
  - split; [exact IH1|lia].
Qed.

Lemma items_read_length (stream : ReadStream) :
  (length (reads stream) <= length stream)%nat.
Proof.
  induction stream as [|[item|e] rest IH]; cbn; [lia| |lia].
  destruct (wrap_message item) as [m|[]]; cbn; lia.
Qed.

Lemma consume_messages_effect (s : Session) (stream : ReadStream) :
  incoming_messages s = Some stream ->
  _write_stream (fst (consume s)) = _write_stream s ++ omap answer (reads stream) /\
  (length (logger s) + 2 + length (reads stream)
   <= length (logger (fst (consume s))))%nat.
Proof.
  intros Hin. rewrite (consume_messages_run _ _ s stream Hin).
  destruct (consume_loop_effect stream
              (logged INFO "incoming_messages type"
                 (logged INFO "McpClientSession has incoming_messages" s)))
    as [Hw Hl].
  destruct (loop stream _) as [s' [[]|e]]; cbn [fst] in *.
  - split; [exact Hw|]. cbn in Hl. rewrite !length_app in Hl. cbn in Hl. lia.
  - destruct (is_ClosedResourceError e); cbn [fst];
      (split; [exact Hw|]); cbn in *; rewrite !length_app in *; cbn in *; lia.
Qed.

Lemma items_read_In (stream : ReadStream) (item : StreamItem) :
  In item (reads stream) -> In (Yield item) stream.
Proof.
  induction stream as [|[item0|e] rest IH]; cbn; [tauto| |tauto].
  destruct (wrap_message item0) as [m|[]]; cbn; intros [H|H];
    try (left; congruence); try contradiction; right; apply IH; exact H.
Qed.

Lemma no_answers (items : list StreamItem) :
  (forall item responder,
      In item items ->
      wrap_message item = Ok (MsgResponder responder) ->
      _entered responder = false) ->
  omap answer items = [].
Proof.
  induction items as [|item items IH]; intros Hne; [reflexivity|].
  rewrite omap_cons_list, IH.
  - assert (Hnone : answer item = None).
    { unfold answer_of.
      destruct (wrap_message item) as [[| responder | | |]|] eqn:Hw; try reflexivity.
      rewrite (Hne item responder (or_introl eq_refl) Hw).
      destruct (request responder) as [|p|]; try reflexivity.
      destruct (handle_sampling_message p); reflexivity. }
    rewrite Hnone. reflexivity.
  - intros item' responder Hin. apply Hne. right. exact Hin.
Qed.

(** X1: the consumer task never answers the peer. Whatever the stream
    holds and whatever the handler returns, as long as the responders
    [wrap_message] hands over for the items of the stream are not entered,
    as a responder is when constructed, the task writes nothing at all: the
    outbound stream after it is the outbound stream before it. *)
Theorem consumer_writes_nothing (s : Session) (stream : ReadStream) :
  incoming_messages s = Some stream ->
  (forall item responder,
      In (Yield item) stream ->
      wrap_message item = Ok (MsgResponder responder) ->
      _entered responder = false) ->
  written consume s = [] /\
  _write_stream (fst (consume s)) = _write_stream s.
Proof.
  intros Hin Hne.
  destruct (consume_messages_effect s stream Hin) as [Hw _].
  rewrite no_answers in Hw.
  - rewrite app_nil_r in Hw. split; [|exact Hw].
    apply written_app. rewrite Hw, app_nil_r. reflexivity.
  - intros item responder Hi. apply Hne. apply items_read_In. exact Hi.
Qed.

(** X2: whatever the session and the stream, the consumer task writes
    response envelopes only: it never puts a request, a notification or an
    error envelope on the outbound stream, and it writes at most one envelope
    for each event of the stream. *)
Theorem consumer_writes_only_responses (s : Session) :
  forallb is_response (written consume s) = true /\
  (length (written consume s)
   <= length (match incoming_messages s with Some stream => stream | None => [] end))%nat.
Proof.
  destruct (incoming_messages s) as [stream|] eqn:Hin.
  - rewrite (written_app consume s _ (proj1 (consume_messages_effect s stream Hin))).
    destruct (answers_are_responses (reads stream)) as [H1 H2].
    split; [exact H1|]. pose proof (items_read_length stream). lia.
  - unfold written. rewrite (consume_messages_guard _ _ s Hin). cbn.
    rewrite drop_all. split; [reflexivity|cbn; lia].
Qed.

(** X3: no item is dropped without a trace: after its two opening records
    the consumer task leaves at least one log record for every item it
    reads. *)
Theorem consumer_logs_every_item (s : Session) (stream : ReadStream) :
  incoming_messages s = Some stream ->
  (length (logger s) + 2 + length (reads stream)
   <= length (logger (fst (consume s))))%nat.
Proof.
  intros Hin. exact (proj2 (consume_messages_effect s stream Hin)).
Qed.

(** X4: the loop reads nothing after the event that ends it. Once the
    iteration of the stream raises, or processing an item raises
    [ClosedResourceError], what the stream holds after that event has no
    effect on the session or on the result. *)
Theorem nothing_read_after_closure (pre rest rest' : ReadStream) (s : Session) :
  (forall e,
      loop (pre ++ IterRaise e :: rest) s = loop (pre ++ IterRaise e :: rest') s) /\
  (forall item,
      wrap_message item = Raise ClosedResourceError ->
      loop (pre ++ Yield item :: rest) s = loop (pre ++ Yield item :: rest') s).
Proof.
  revert s. induction pre as [|[item0|e0] pre IH]; intros s.
  - split.
    + intros e. reflexivity.
    + intros item Hw. cbn [app]. rewrite !consume_loop_yield.
      destruct (loop_turn_effect item s) as (_ & Hc & _).
      rewrite Hw in Hc.
      destruct (turn item s) as [s' r]. cbn [snd] in Hc. subst r. reflexivity.
  - cbn [app]. split.
    + intros e. rewrite !consume_loop_yield.
      destruct (turn item0 s) as [s' [[]|e1]]; try reflexivity.
      apply (proj1 (IH s')).
    + intros item Hw. rewrite !consume_loop_yield.
      destruct (turn item0 s) as [s' [[]|e1]]; try reflexivity.
      apply (proj2 (IH s')). exact Hw.
  - split; intros; reflexivity.
Qed.

(** X5: the lines of [__aenter__] that patch the attribute leave every
    session with a stream in [incoming_messages]: the one it had, or
    [_read_stream] when it had none. They change nothing on the outbound
    side, and the consumer task run on the session they leave takes the loop
    over that stream, not the early return. Without them, a session whose
    [incoming_messages] is missing gives a consumer task that returns at
    once with a warning, having read and written nothing. *)
Theorem aenter_restores_stream (s : Session) :
  snd (__aenter__ s) = Ok tt /\
  incoming_messages (fst (__aenter__ s)) =
  Some (match incoming_messages s with
        | Some stream => stream
        | None => _read_stream s
        end) /\
  _write_stream (fst (__aenter__ s)) = _write_stream s /\
  _request_id (fst (__aenter__ s)) = _request_id s /\
  _response_streams (fst (__aenter__ s)) = _response_streams s /\
  consume (fst (__aenter__ s)) =
  match loop (match incoming_messages s with
              | Some stream => stream
              | None => _read_stream s
              end)
          (logged INFO "incoming_messages type"
             (logged INFO "McpClientSession has incoming_messages"
                (fst (__aenter__ s)))) with
  | (s', Ok _) => (s', Ok tt)
  | (s', Raise e) =>
      if is_ClosedResourceError e
      then (logged DEBUG "Message stream closed" s', Ok tt)
      else (logged EXCEPTION "Message consumer task failed" s', Ok tt)
  end /\
  (incoming_messages s = None ->
   consume s =
   (logged WARNING "incoming_messages not found or is None"
      (logged INFO "McpClientSession has incoming_messages" s), Ok tt) /\
   written consume s = []).
Proof.
  assert (Hin : incoming_messages (fst (__aenter__ s)) =
                Some (match incoming_messages s with
                      | Some stream => stream
                      | None => _read_stream s
                      end)).
  { unfold __aenter__. destruct (incoming_messages s) eqn:E; [exact E|reflexivity]. }
  split; [unfold __aenter__; destruct (incoming_messages s); reflexivity|].
  split; [exact Hin|].
  split; [unfold __aenter__; destruct (incoming_messages s); reflexivity|].
  split; [unfold __aenter__; destruct (incoming_messages s); reflexivity|].
  split; [unfold __aenter__; destruct (incoming_messages s); reflexivity|].
  split; [apply consume_messages_run; exact Hin|].
  intros Hnone. rewrite (consume_messages_guard _ _ s Hnone).
  split; [reflexivity|].
  unfold written. rewrite (consume_messages_guard _ _ s Hnone). cbn.
  apply drop_all.
Qed.

End ConsumerOutput.

Section OutboundEdges.

Variable LATEST_PROTOCOL_VERSION : string.
Variable SUPPORTED_PROTOCOL_VERSIONS : list string.
Variable version : string.
Variable peer : JSONRPCMessage -> Reply.

Local Abbreviation init :=
  (initialize LATEST_PROTOCOL_VERSION SUPPORTED_PROTOCOL_VERSIONS version peer).
Local Abbreviation hello s :=
  (JSONRPCRequest (IdInt (_request_id s))
     (handshake_body LATEST_PROTOCOL_VERSION version)).

Lemma str_in_In (x : string) (xs : list string) :
  str_in x xs = true <-> In x xs.
Proof.
  induction xs as [|y ys IH]; cbn.
  - split; [discriminate|contradiction].
  - destruct (String.eqb x y) eqn:E.
    + apply String.eqb_eq in E. split; [left; congruence|reflexivity].
    + apply String.eqb_neq in E. rewrite IH.
      split; [right; assumption|]. intros [H|H]; [congruence|exact H].
Qed.

(** X6: [initialize] returns a result exactly when the peer answered the
    Initialize request with an Initialize result whose protocol version is a
    member of the supported versions, and the result returned is that
    answer. In particular no result with an unsupported version is ever
    returned, and an error reply or a result of another shape is never turned
    into one. *)
Theorem initialize_returns_iff (s : Session) (r : InitializeResult) :
  snd (init s) = Ok r <->
  peer (hello s) =
  ReplyResult (RawInitialize (result_protocolVersion r) (serverInfo r)) /\
  In (result_protocolVersion r) SUPPORTED_PROTOCOL_VERSIONS.
Proof.
  rewrite initialize_run. cbv zeta. rewrite <- str_in_In.
  destruct (peer (hello s)) as [[v info| |k d]|err]; cbn.
  - destruct (str_in v SUPPORTED_PROTOCOL_VERSIONS) eqn:E; cbn.
    + split.
      * intros H. inversion H; subst r. cbn. split; [reflexivity|exact E].
      * intros [H _]. inversion H. destruct r; reflexivity.
    + split; [discriminate|].
      intros [H Hin]. inversion H; subst v. congruence.
  - split; [discriminate|intros [H _]; discriminate].
  - split; [discriminate|intros [H _]; discriminate].
  - split; [discriminate|intros [H _]; discriminate].
Qed.

(** X8: the [RuntimeError] of [initialize] has one cause. It is raised
    exactly when the peer answered with an Initialize result whose protocol
    version is not a member of the supported versions, and its message ends
    with that version. *)
Theorem initialize_runtime_error_iff (s : Session) (msg : string) :
  snd (init s) = Raise (RuntimeError msg) <->
  exists v info,
    peer (hello s) = ReplyResult (RawInitialize v info) /\
    ~ In v SUPPORTED_PROTOCOL_VERSIONS /\
    msg = ("Unsupported protocol version from the server: " ++ v)%string.
Proof.
  rewrite initialize_run. cbv zeta.
  destruct (peer (hello s)) as [[v info| |k d]|err]; cbn.
  - destruct (str_in v SUPPORTED_PROTOCOL_VERSIONS) eqn:E; cbn.
    + split; [discriminate|].
      intros (v' & info' & H & Hn & _). inversion H; subst v'.
      apply str_in_In in E. contradiction.
    + split.
      * intros H. inversion H. exists v, info.
        split; [reflexivity|]. split; [|reflexivity].
        intros Hin. apply str_in_In in Hin. congruence.
      * intros (v' & info' & H & _ & Hm). inversion H; subst v' msg.
        reflexivity.
  - split; [discriminate|intros (v' & info' & H & _); discriminate].
  - split; [discriminate|intros (v' & info' & H & _); discriminate].
  - split; [discriminate|intros (v' & info' & H & _); discriminate].
Qed.

(** X7: [complete] builds its argument from the dictionary before anything
    is sent. With string entries [name] and [value] the request goes out
    carrying both, and the whole dictionary with them; when either entry is
    missing or is not a string the call raises and the session is as before:
    nothing written, no request id spent. *)
Theorem complete_argument_check (ref : CompletionRef) (argument : dict)
    (s : Session) :
  (forall n v,
      dict_get argument "name" = Some (JStr n) ->
      dict_get argument "value" = Some (JStr v) ->
      written (complete peer ref argument) s =
      [JSONRPCRequest (IdInt (_request_id s))
         (mkClientBody "completion/complete"
            (CompleteRequestParams ref (mkCompletionArgument n v argument)))] /\
      _request_id (fst (complete peer ref argument s)) = _request_id s + 1) /\
  ((forall n, dict_get argument "name" <> Some (JStr n)) \/
   (forall v, dict_get argument "value" <> Some (JStr v)) ->
   complete peer ref argument s =
   (s, Raise (ValidationError "CompletionArgument"))).
Proof.
  split.
  - intros n v Hn Hv.
    assert (Hrun : complete peer ref argument s =
                   send_request peer
                     (mkClientBody "completion/complete"
                        (CompleteRequestParams ref (mkCompletionArgument n v argument)))
                     types_CompleteResult s).
    { unfold complete, bind, lift, CompletionArgument_kwargs.
      rewrite Hn, Hv. reflexivity. }
    split.
    + apply written_app. rewrite Hrun, send_request_run. reflexivity.
    + rewrite Hrun, send_request_run. reflexivity.
  - intros Hbad. unfold complete, bind, lift, CompletionArgument_kwargs.
    destruct (dict_get argument "name") as [[| | |n|]|] eqn:Hn; try reflexivity.
    destruct (dict_get argument "value") as [[| | |v|]|] eqn:Hv; try reflexivity.
    destruct Hbad as [H|H]; [destruct (H n eq_refl)|destruct (H v eq_refl)].
Qed.

End OutboundEdges.

(** ** The further properties at concrete sessions *)

Import MoreExamples.

(** Two sampling requests with a ping between them: nothing is written. *)
Lemma consumer_writes_nothing_witness :
  written (_consume_messages wrap handler_ok) (reading two_requests) = [] /\
  _write_stream (fst (_consume_messages wrap handler_ok (reading two_requests))) =
  [].
Proof.
  apply (consumer_writes_nothing wrap handler_ok (reading two_requests)
           two_requests eq_refl).
  intros item responder [H|[H|[H|[]]]] Hw;
    inversion H; subst item; inversion Hw; reflexivity.
Defined.

Lemma consumer_logs_every_item_witness :
  (0 + 2 + 3
   <= length (logger (fst (_consume_messages wrap handler_ok
                             (reading two_requests)))))%nat.
Proof.
  exact (consumer_logs_every_item wrap handler_ok (reading two_requests)
           two_requests eq_refl).
Defined.

(** A sampling request behind a closed-resource item changes nothing. *)
Lemma nothing_read_after_closure_witness :
  consume_loop wrap handler_ok
    ([Yield ping_from_peer]
     ++ Yield (ItemException ClosedResourceError) :: [Yield sampling_from_peer])
    fresh =
  consume_loop wrap handler_ok
    ([Yield ping_from_peer] ++ Yield (ItemException ClosedResourceError) :: [])
    fresh.
Proof.
  exact (proj2 (nothing_read_after_closure wrap handler_ok
                  [Yield ping_from_peer] [Yield sampling_from_peer] [] fresh)
           (ItemException ClosedResourceError) eq_refl).
Defined.

(** A session whose [incoming_messages] is missing: its consumer task reads
    nothing, though a sampling request waits in [_read_stream]. *)
Lemma aenter_restores_stream_witness :
  _consume_messages wrap handler_ok (unwired two_requests) =
  (logged WARNING "incoming_messages not found or is None"
     (logged INFO "McpClientSession has incoming_messages" (unwired two_requests)),
   Ok tt) /\
  written (_consume_messages wrap handler_ok) (unwired two_requests) = [].
Proof.
  exact (proj2 (proj2 (proj2 (proj2 (proj2 (proj2
           (aenter_restores_stream wrap handler_ok (unwired two_requests))))))) eq_refl).
Defined.

Lemma initialize_returns_iff_witness :
  snd (initialize latest supported bridge_version peer_current fresh) =
  Ok (mkInitializeResult "2024-11-05" server_info).
Proof.
  apply (proj2 (initialize_returns_iff latest supported bridge_version
                  peer_current fresh
                  (mkInitializeResult "2024-11-05" server_info))).
  split; [reflexivity|left; reflexivity].
Defined.

(** A well-formed argument, and one without [value]. *)
Lemma complete_argument_check_witness :
  (written (complete peer_current (PromptReference "greet") good_argument) fresh =
   [JSONRPCRequest (IdInt 0)
      (mkClientBody "completion/complete"
         (CompleteRequestParams (PromptReference "greet")
            (mkCompletionArgument "language" "py" good_argument)))] /\
   _request_id (fst (complete peer_current (PromptReference "greet")
                       good_argument fresh)) = 0 + 1) /\
  complete peer_current (PromptReference "greet") argument_without_value fresh =
  (fresh, Raise (ValidationError "CompletionArgument")).
Proof.
  split.
  - exact (proj1 (complete_argument_check peer_current (PromptReference "greet")
                    good_argument fresh)
             "language" "py" eq_refl eq_refl).
  - apply (proj2 (complete_argument_check peer_current (PromptReference "greet")
                    argument_without_value fresh)).
    right. intros v. discriminate.
Defined.

Lemma initialize_runtime_error_iff_witness :
  snd (initialize latest supported bridge_version peer_old fresh) =
  Raise (RuntimeError "Unsupported protocol version from the server: 1999-01-01").
Proof.
  apply (proj2 (initialize_runtime_error_iff latest supported bridge_version
                  peer_old fresh
                  "Unsupported protocol version from the server: 1999-01-01")).
  exists "1999-01-01", server_info.
  split; [reflexivity|]. split; [|reflexivity].
  intros [H|[]]. discriminate.
Defined.
